(** * zrepl, internal/zfs/encryption.go: native-encryption capability probe
      and the two property gates built on it.

    The Go file holds one process-wide cache ([encryptionCLISupport], filled
    under a [sync.Once]) and three functions: [EncryptionCLISupported],
    [ZFSGetEncryptionEnabled] and [ZFSGetKeyUnloaded].  They are embedded
    here as computations over an explicit program state (the cache and the
    log of calls made to the collaborators) that either return or panic. *)

From Stdlib Require Import String Ascii List Bool ZArith Lia.
From stdpp Require Import base option list strings gmap.


(** ** Go strings *)

Module GoStrings.

(** One double-quote character, for messages that contain it. *)
Definition dq : string := String "034"%char EmptyString.

(** [strings.HasPrefix s p], by recursion on [p]. *)
Fixpoint HasPrefix (s p : string) {struct p} : bool :=
  match p, s with
  | EmptyString, _ => true
  | String _ _, EmptyString => false
  | String c p', String d s' => if Ascii.eqb c d then HasPrefix s' p' else false
  end.

(** [strings.Contains s substr]: [substr] occurs at some offset of [s]. *)
Fixpoint Contains (s substr : string) : bool :=
  if HasPrefix s substr then true
  else match s with
       | EmptyString => false
       | String _ s' => Contains s' substr
       end.

End GoStrings.

Import GoStrings.

(** ** Errors *)

(** [os.ProcessState], the part [exec.ExitError] exposes here. *)
Record ProcessState : Type := mkProcessState {
  Exited : bool;
  ExitCode : Z
}.

(** Go [error] values that reach this file.  A nil [error] is [None] of
    [option error].
    - [ExitError]: [*exec.ExitError], carrying its process state;
    - [ForeignError]: any other error value made by a collaborator;
    - [errorString]: [errors.New msg];
    - [withMessage]: [errors.Wrap cause msg] for a non-nil cause;
    - [Errorf_fs]: [fmt.Errorf(op ++ " fs=%q: %s", fs, cause)], the value the
      deferred closures of the two gates build. *)
Inductive error : Type :=
| ExitError (ps : ProcessState)
| ForeignError (msg : string)
| errorString (msg : string)
| withMessage (cause : error) (msg : string)
| Errorf_fs (op : string) (fs : string) (cause : error).

(** [errors.New]. *)
Definition errors_New (msg : string) : option error := Some (errorString msg).

(** [errors.Wrap] of github.com/pkg/errors: nil stays nil. *)
Definition errors_Wrap (err : option error) (msg : string) : option error :=
  match err with
  | None => None
  | Some e => Some (withMessage e msg)
  end.

(** The type assertion [ee, ok := err.( *exec.ExitError )]: [Some ee] when
    [ok], [None] otherwise (a nil [err] asserts to nothing). *)
Definition as_ExitError (err : option error) : option ProcessState :=
  match err with
  | Some (ExitError ps) => Some ps
  | _ => None
  end.

(** ** Collaborators *)

(** Modelled from the spec: the [PropertySource] type is declared elsewhere
    in package zfs; the spec names the provenance filters local, inherited
    and any, and this file only ever passes [SourceAny]. *)
Inductive PropertySource : Type := SourceLocal | SourceInherited | SourceAny.

(** Modelled from the spec: [ZFSProperties] and its [Get] are declared
    elsewhere in package zfs; [Get] "returns the string value (or empty
    string if absent) for a requested property name". *)
Definition Get (props : gmap string string) (key : string) : string :=
  default EmptyString (props !! key).

(** What the program did to its collaborators, oldest first. *)
Inductive event : Type :=
| EvCommand (name : string) (args : list string)
| EvValidate (fs : string)
| EvZfsGet (fs : string) (props : list string) (src : PropertySource).

Definition is_command (e : event) : bool :=
  match e with EvCommand _ _ => true | _ => false end.
Definition is_validate (e : event) : bool :=
  match e with EvValidate _ => true | _ => false end.
Definition is_query (e : event) : bool :=
  match e with EvZfsGet _ _ _ => true | _ => false end.

(** Number of events of a kind in a log. *)
Definition count (p : event -> bool) (t : list event) : nat :=
  List.length (List.filter p t).

(** ** Program state *)

(** The package variable [encryptionCLISupport]; [once_done] is the state
    of its [sync.Once]. *)
Record encryptionCLISupport_t : Type := mkCLISupport {
  once_done : bool;
  supported : bool;
  err : option error
}.

Record state : Type := mkState {
  encryptionCLISupport : encryptionCLISupport_t;
  trace : list event
}.

(** Go's zero value of the package variable, and the state of a process
    that has not called anything yet. *)
Definition zero_CLISupport : encryptionCLISupport_t := mkCLISupport false false None.
Definition init_state : state := mkState zero_CLISupport nil.

(** ** Computations: state passing, with panics *)

Inductive outcome (A : Type) : Type :=
| Return (a : A)
| Panic (msg : string).
Arguments Return {A} a.
Arguments Panic {A} msg.

Definition M (A : Type) : Type := state -> outcome A * state.

#[global] Instance M_ret : MRet M := fun A (a : A) s => (Return a, s).

#[global] Instance M_bind : MBind M := fun A B (k : A -> M B) (m : M A) s =>
  match m s with
  | (Return a, s') => k a s'
  | (Panic msg, s') => (Panic msg, s')
  end.

Definition panic {A} (msg : string) : M A := fun s => (Panic msg, s).

Definition log (e : event) : M unit :=
  fun s => (Return tt, mkState (encryptionCLISupport s) (trace s ++ e :: nil)).

Definition get_cache : M encryptionCLISupport_t :=
  fun s => (Return (encryptionCLISupport s), s).

Definition put_cache (c : encryptionCLISupport_t) : M unit :=
  fun s => (Return tt, mkState c (trace s)).

(** [encryptionCLISupport.err = e] and [encryptionCLISupport.supported = b]. *)
Definition set_err (e : option error) : M unit :=
  c ← get_cache; put_cache (mkCLISupport (once_done c) (supported c) e).

Definition set_supported (b : bool) : M unit :=
  c ← get_cache; put_cache (mkCLISupport (once_done c) b (err c)).

Section Encryption.

(** [context.Context] is opaque to this file: it is only handed on. *)
Context {context : Type}.

(** The outside world.  The subprocess and the property query may answer
    differently each time they are asked, so they see the log so far.
    - [CombinedOutput]: [zfscmd.CommandContext(ctx, name, args...).CombinedOutput()];
    - [getenv]: the boolean override as the environment holds it;
    - [validateZFSFilesystem]: nil ([None]) for a well-formed name;
    - [zfsGet]: the property set, or the query's error. *)
Record Collaborators : Type := mkCollaborators {
  CombinedOutput : list event -> context -> string -> list string -> string * option error;
  getenv : string -> option bool;
  validateZFSFilesystem : string -> option error;
  zfsGet : list event -> context -> string -> list string -> PropertySource ->
           gmap string string + error
}.

Variable W : Collaborators.

(** Modelled from the spec: [envconst.Bool] lives in internal/util/envconst;
    the spec has it as "an environment-style boolean override, keyed by a
    fixed name", that forces the flag "to a fixed value regardless of the
    detected default". *)
Definition envconst_Bool (name : string) (def : bool) : bool :=
  match getenv W name with
  | Some b => b
  | None => def
  end.

(** The calls to the collaborators, each one logged. *)
Definition run_CombinedOutput (ctx : context) (name : string) (args : list string)
  : M (string * option error) :=
  fun s => (Return (CombinedOutput W (trace s) ctx name args),
            mkState (encryptionCLISupport s) (trace s ++ EvCommand name args :: nil)).

Definition run_validateZFSFilesystem (fs : string) : M (option error) :=
  log (EvValidate fs);; mret (validateZFSFilesystem W fs).

Definition run_zfsGet (ctx : context) (fs : string) (props : list string)
  (src : PropertySource) : M (gmap string string + error) :=
  fun s => (Return (zfsGet W (trace s) ctx fs props src),
            mkState (encryptionCLISupport s) (trace s ++ EvZfsGet fs props src :: nil)).

(** [encryptionCLISupport.once.Do(f)]: [f] runs if the once has not fired,
    and the once has fired when [Do] is left, also when [f] panics. *)
Definition once_Do (f : M unit) : M unit :=
  fun s =>
    if once_done (encryptionCLISupport s) then (Return tt, s)
    else
      let '(r, s') := f s in
      let c := encryptionCLISupport s' in
      (r, mkState (mkCLISupport true (supported c) (err c)) (trace s')).

(** ** The three functions *)

Definition probe_name : string := "ZREPL_EXPERIMENTAL_ZFS_ENCRYPTION_CLI_SUPPORTED".

(** The closure handed to [once.Do] in [EncryptionCLISupported]
    (the [debug] line only logs). *)
Definition feature_check (ctx : context) : M unit :=
  '(output, cerr) ← run_CombinedOutput ctx "zfs" ("load-key" :: nil);
  (if match as_ExitError cerr with
      | None => true                    (* !ok *)
      | Some ee => negb (Exited ee)     (* ok && !ee.Exited() *)
      end
   then set_err (errors_Wrap cerr "native encryption cli support feature check failed")
   else mret tt);;
  let def := Contains output "load-key" && Contains output "keylocation" in
  set_supported (envconst_Bool probe_name def).

Definition EncryptionCLISupported (ctx : context) : M (bool * option error) :=
  once_Do (feature_check ctx);;
  c ← get_cache;
  mret (supported c, err c).

(** The deferred closure of both gates: a non-nil [err] result is
    replaced by [fmt.Errorf(op ++ " fs=%q: %s", fs, err)].  When the body
    panics the named result is still nil, so the closure changes nothing
    and the panic goes on. *)
Definition deferred_wrap (op fs : string) (body : M (bool * option error))
  : M (bool * option error) :=
  fun s => match body s with
           | (Return (b, Some e), s') => (Return (b, Some (Errorf_fs op fs e)), s')
           | r => r
           end.

Definition ZFSGetEncryptionEnabled (ctx : context) (fs : string) : M (bool * option error) :=
  deferred_wrap "zfs get encryption enabled" fs (
    '(supp, e) ← EncryptionCLISupported ctx;
    match e with
    | Some _ => mret (false, e)
    | None =>
      if negb supp then mret (false, None)
      else
        verr ← run_validateZFSFilesystem fs;
        match verr with
        | Some _ => mret (false, verr)
        | None =>
          r ← run_zfsGet ctx fs ("encryption" :: nil) SourceAny;
          match r with
          | inr qerr => mret (false, errors_Wrap (Some qerr) "cannot get `encryption` property")
          | inl props =>
            let val := Get props "encryption" in
            if String.eqb val EmptyString then
              panic "zfs get should return a value for `encryption`"
            else if String.eqb val "-" then
              mret (false, errors_New ("`encryption` property should never be " +:+ dq +:+ "-" +:+ dq))
            else if String.eqb val "off" then mret (false, None)
            else mret (true, None)
          end
        end
    end).

Definition ZFSGetKeyUnloaded (ctx : context) (fs : string) : M (bool * option error) :=
  deferred_wrap "zfs get key loaded" fs (
    '(supp, e) ← EncryptionCLISupported ctx;
    match e with
    | Some _ => mret (false, e)
    | None =>
      if negb supp then mret (false, None)
      else
        r ← run_zfsGet ctx fs ("keystatus" :: nil) SourceAny;
        match r with
        | inr qerr => mret (false, errors_Wrap (Some qerr) "cannot get `keystatus` property")
        | inl props =>
          let val := Get props "keystatus" in
          if String.eqb val EmptyString then
            panic "zfs get should return a value for `keystatus`"
          else if String.eqb val "available" then mret (false, None)
          else if String.eqb val "unavailable" then mret (true, None)
          else panic "Unknown key status"
        end
    end).

(** ** Programs: any sequence of calls to the three functions *)

Inductive call : Type :=
| CallSupported (ctx : context)
| CallEncryptionEnabled (ctx : context) (fs : string)
| CallKeyUnloaded (ctx : context) (fs : string).

Definition call_ctx (c : call) : context :=
  match c with
  | CallSupported ctx => ctx
  | CallEncryptionEnabled ctx _ => ctx
  | CallKeyUnloaded ctx _ => ctx
  end.

Definition run_call (c : call) : M (bool * option error) :=
  match c with
  | CallSupported ctx => EncryptionCLISupported ctx
  | CallEncryptionEnabled ctx fs => ZFSGetEncryptionEnabled ctx fs
  | CallKeyUnloaded ctx fs => ZFSGetKeyUnloaded ctx fs
  end.

(** The calls are run one after the other; a caller that recovers from a
    panic may go on calling, so a panic does not end the run. *)
Fixpoint run_calls (cs : list call) (s : state)
  : list (outcome (bool * option error)) * state :=
  match cs with
  | nil => (nil, s)
  | c :: cs' =>
    let '(r, s1) := run_call c s in
    let '(rs, s2) := run_calls cs' s1 in
    (r :: rs, s2)
  end.

(** What a call returns when the cache holds the flag [supp] and a probe
    error [perr]: the probe hands both on, the gates return false with the
    error wrapped by their deferred closure. *)
Definition failed_outcome (supp : bool) (perr : error) (c : call)
  : outcome (bool * option error) :=
  match c with
  | CallSupported _ => Return (supp, Some perr)
  | CallEncryptionEnabled _ fs =>
    Return (false, Some (Errorf_fs "zfs get encryption enabled" fs perr))
  | CallKeyUnloaded _ fs =>
    Return (false, Some (Errorf_fs "zfs get key loaded" fs perr))
  end.

(** The events a computation adds to the log when started in [s]. *)
Definition issued {A} (m : M A) (s : state) : list event :=
  drop (List.length (trace s)) (trace (snd (m s))).

(** What the closure of [EncryptionCLISupported] leaves in the cache, read
    off its two assignments: the error for a command error [cerr] (the old
    field is kept when the branch is not taken), and the flag for the
    command's output. *)
Definition probe_err (cerr old : option error) : option error :=
  if match as_ExitError cerr with
     | None => true
     | Some ee => negb (Exited ee)
     end
  then errors_Wrap cerr "native encryption cli support feature check failed"
  else old.

Definition probe_supported (output : string) : bool :=
  envconst_Bool probe_name (Contains output "load-key" && Contains output "keylocation").

(** The log once the probe has run from [s]. *)
Definition probe_trace (s : state) : list event :=
  trace s ++ EvCommand "zfs" ("load-key" :: nil) :: nil.

End Encryption.

Arguments Collaborators : clear implicits.
Arguments call : clear implicits.

(** ** What a call asks of the collaborators *)

(** The probe's answer that lets a gate go on to its query: (true, nil). *)
Definition capability_present (r : outcome (bool * option error)) : bool :=
  match r with
  | Return (true, None) => true
  | _ => false
  end.

(** The collaborator calls each function makes after the probe when the
    capability is present, read off its body: [EncryptionCLISupported] makes
    none, [ZFSGetEncryptionEnabled] validates and, if the name is accepted,
    queries [encryption]; [ZFSGetKeyUnloaded] queries [keystatus]. *)
Definition call_events {context : Type} (W : Collaborators context) (c : call context)
  : list event :=
  match c with
  | CallSupported _ => nil
  | CallEncryptionEnabled _ fs =>
    EvValidate fs ::
    match validateZFSFilesystem W fs with
    | Some _ => nil
    | None => EvZfsGet fs ("encryption" :: nil) SourceAny :: nil
    end
  | CallKeyUnloaded _ fs => EvZfsGet fs ("keystatus" :: nil) SourceAny :: nil
  end.

(** ** Sample environments *)

(** Four machines to run the functions on: a zfs with native encryption, one
    without, and a missing binary (without and with the override). *)
Module Samples.

Definition usage : string :=
  "usage: load-key [-rn] [-L <keylocation>] <-a | filesystem|volume>".

Definition exit_status (n : Z) : option error :=
  Some (ExitError (mkProcessState true n)).

Definition not_found : error :=
  ForeignError "exec: zfs: executable file not found in $PATH".

Definition no_override : string -> option bool := fun _ => None.

Definition force (b : bool) : string -> option bool :=
  fun name => if String.eqb name probe_name then Some b else None.

(** Dataset names with an "@" in them name snapshots, not filesystems. *)
Definition validate (fs : string) : option error :=
  if Contains fs "@" then Some (ForeignError "invalid character in dataset name")
  else None.

Definition secret_props : gmap string string :=
  <["encryption" := "aes-256-gcm"]> {["keystatus" := "unavailable"]}.

Definition plain_props : gmap string string :=
  <["encryption" := "off"]> {["keystatus" := "-"]}.

Definition properties (fs : string) : gmap string string + error :=
  if String.eqb fs "pool/secret" then inl secret_props
  else if String.eqb fs "pool/plain" then inl plain_props
  else inr (ForeignError "dataset does not exist").

Definition machine (answer : string * option error) (env : string -> option bool)
  : Collaborators unit :=
  mkCollaborators (fun _ _ _ _ => answer) env validate (fun _ _ fs _ _ => properties fs).

Definition modern_zfs : Collaborators unit := machine (usage, exit_status 2) no_override.

Definition legacy_zfs : Collaborators unit :=
  machine ("unrecognized command 'load-key'", exit_status 2) no_override.

Definition missing_zfs : Collaborators unit :=
  machine (EmptyString, Some not_found) no_override.

Definition missing_zfs_forced : Collaborators unit :=
  machine (EmptyString, Some not_found) (force true).

End Samples.

(** Two more machines: one whose zfs answers every query with an empty
    property set, and one whose usage text comes with a warning around it. *)
Module MoreSamples.

Definition blank_zfs : Collaborators unit :=
  mkCollaborators (fun _ _ _ _ => (Samples.usage, Samples.exit_status 2))
                  Samples.no_override Samples.validate
                  (fun _ _ _ _ _ => inl (∅ : gmap string string)).

Definition noisy_zfs : Collaborators unit :=
  Samples.machine ("WARNING: pool is degraded; " +:+ Samples.usage +:+ " (see zfs(8))",
                   Samples.exit_status 2)
                  Samples.no_override.

End MoreSamples.

(** * Properties *)

(** ** [strings.Contains] finds exactly the substrings *)

Lemma append_String (c : ascii) (a b : string) :
  String c a +:+ b = String c (a +:+ b).
Proof. reflexivity. Qed.

Lemma HasPrefix_spec (s p : string) :
  HasPrefix s p = true <-> exists b, s = p +:+ b.
Proof.
  revert s. induction p as [|c p IH]; intros s; simpl.
  - split; [intros _; exists s; reflexivity | reflexivity].
  - destruct s as [|d s].
    + split; [discriminate | intros [b Hb]; discriminate].
    + destruct (Ascii.eqb c d) eqn:E.
      * apply Ascii.eqb_eq in E. subst d. rewrite IH.
        split; intros [b Hb]; exists b.
        -- rewrite Hb. reflexivity.
        -- rewrite append_String in Hb. injection Hb as Hb. exact Hb.
      * apply Ascii.eqb_neq in E.
        split; [discriminate |].
        intros [b Hb]. rewrite append_String in Hb. injection Hb as Hc _. congruence.
Qed.

Lemma Contains_spec (s sub : string) :
  Contains s sub = true <-> exists a b, s = a +:+ sub +:+ b.
Proof.
  induction s as [|d s IH].
  - simpl. destruct (HasPrefix EmptyString sub) eqn:E.
    + apply HasPrefix_spec in E. destruct E as [b Hb].
      split; [intros _; exists EmptyString, b; exact Hb | reflexivity].
    + split; [discriminate |].
      intros [a [b Hab]]. destruct a as [|d a]; [| discriminate].
      assert (HasPrefix EmptyString sub = true) by (apply HasPrefix_spec; eauto).
      congruence.
  - simpl. destruct (HasPrefix (String d s) sub) eqn:E.
    + apply HasPrefix_spec in E. destruct E as [b Hb].
      split; [intros _; exists EmptyString, b; exact Hb | reflexivity].
    + rewrite IH. split.
      * intros [a [b Hab]]. exists (String d a), b.
        rewrite append_String, Hab. reflexivity.
      * intros [a [b Hab]]. destruct a as [|d' a].
        -- assert (HasPrefix (String d s) sub = true) by (apply HasPrefix_spec; eauto).
           congruence.
        -- rewrite append_String in Hab. injection Hab as _ Hab. eauto.
Qed.

(** ** Logs *)

Lemma count_app (p : event -> bool) (t u : list event) :
  count p (t ++ u) = count p t + count p u.
Proof. unfold count. rewrite List.filter_app, List.length_app. reflexivity. Qed.

Lemma drop_length_app (t u : list event) : drop (List.length t) (t ++ u) = u.
Proof. induction t; simpl; auto. Qed.

Section Properties.

Context {context : Type}.
Variable W : Collaborators context.

(** ** The capability probe, run for the first time and afterwards *)

(** A later call leaves the state alone and reads the cache. *)
Lemma EncryptionCLISupported_cached (ctx : context) (s : state) :
  once_done (encryptionCLISupport s) = true ->
  EncryptionCLISupported W ctx s =
    (Return (supported (encryptionCLISupport s), err (encryptionCLISupport s)), s).
Proof.
  intros H. unfold EncryptionCLISupported, once_Do, mbind, M_bind, get_cache, mret, M_ret.
  rewrite H. reflexivity.
Qed.

(** The first call runs the subprocess once and fills the cache. *)
Lemma EncryptionCLISupported_first (ctx : context) (s : state) :
  once_done (encryptionCLISupport s) = false ->
  let r := CombinedOutput W (trace s) ctx "zfs" ("load-key" :: nil) in
  let b := probe_supported W (fst r) in
  let e := probe_err (snd r) (err (encryptionCLISupport s)) in
  EncryptionCLISupported W ctx s =
    (Return (b, e), mkState (mkCLISupport true b e) (probe_trace s)).
Proof.
  intros H r b e. subst r b e.
  unfold EncryptionCLISupported, once_Do, feature_check, run_CombinedOutput,
    set_err, set_supported, probe_err, probe_supported, probe_trace,
    mbind, M_bind, get_cache, put_cache, mret, M_ret.
  rewrite H.
  destruct (CombinedOutput W (trace s) ctx "zfs" ("load-key" :: nil)) as [output cerr].
  simpl. destruct (as_ExitError cerr) as [ee|]; [destruct (Exited ee)|]; reflexivity.
Qed.

(** Either way it returns, the once has fired, nothing but the probe command
    was added to the log, and what it returns is what the cache holds. *)
Lemma EncryptionCLISupported_returns (ctx : context) (s : state) :
  exists b e s1,
    EncryptionCLISupported W ctx s = (Return (b, e), s1) /\
    encryptionCLISupport s1 = mkCLISupport true b e /\
    (trace s1 = trace s \/ trace s1 = probe_trace s).
Proof.
  destruct (once_done (encryptionCLISupport s)) eqn:H.
  - exists (supported (encryptionCLISupport s)), (err (encryptionCLISupport s)), s.
    split; [apply EncryptionCLISupported_cached; exact H |].
    split; [| left; reflexivity].
    destruct s as [[o b e] t]; simpl in *. subst o. reflexivity.
  - pose proof (EncryptionCLISupported_first ctx s H) as E. cbv zeta in E.
    eexists _, _, _. split; [exact E |]. split; [reflexivity | right; reflexivity].
Qed.

(** ** How the gates go on from what the probe answers *)

Ltac gate_unfold :=
  unfold ZFSGetEncryptionEnabled, ZFSGetKeyUnloaded, deferred_wrap,
    run_validateZFSFilesystem, run_zfsGet, log, panic, mbind, M_bind, mret, M_ret.

Lemma gate_probe_error (ctx : context) (fs : string) (s s1 : state) (b : bool) (e : error) :
  EncryptionCLISupported W ctx s = (Return (b, Some e), s1) ->
  ZFSGetEncryptionEnabled W ctx fs s =
    (Return (false, Some (Errorf_fs "zfs get encryption enabled" fs e)), s1) /\
  ZFSGetKeyUnloaded W ctx fs s =
    (Return (false, Some (Errorf_fs "zfs get key loaded" fs e)), s1).
Proof. intros E. gate_unfold. rewrite E. split; reflexivity. Qed.

Lemma gate_unsupported (ctx : context) (fs : string) (s s1 : state) :
  EncryptionCLISupported W ctx s = (Return (false, None), s1) ->
  ZFSGetEncryptionEnabled W ctx fs s = (Return (false, None), s1) /\
  ZFSGetKeyUnloaded W ctx fs s = (Return (false, None), s1).
Proof. intros E. gate_unfold. rewrite E. split; reflexivity. Qed.

(** With the capability present, [ZFSGetEncryptionEnabled] validates the
    name, then queries and reads the value. *)
Lemma enabled_supported_invalid (ctx : context) (fs : string) (s s1 : state) (e : error) :
  EncryptionCLISupported W ctx s = (Return (true, None), s1) ->
  validateZFSFilesystem W fs = Some e ->
  ZFSGetEncryptionEnabled W ctx fs s =
    (Return (false, Some (Errorf_fs "zfs get encryption enabled" fs e)),
     mkState (encryptionCLISupport s1) (trace s1 ++ EvValidate fs :: nil)).
Proof. intros E V. gate_unfold. rewrite E. simpl. rewrite V. reflexivity. Qed.

Lemma enabled_supported_valid (ctx : context) (fs : string) (s s1 : state) :
  EncryptionCLISupported W ctx s = (Return (true, None), s1) ->
  validateZFSFilesystem W fs = None ->
  let t1 := trace s1 ++ EvValidate fs :: nil in
  let s2 := mkState (encryptionCLISupport s1)
                    (t1 ++ EvZfsGet fs ("encryption" :: nil) SourceAny :: nil) in
  ZFSGetEncryptionEnabled W ctx fs s =
    match zfsGet W t1 ctx fs ("encryption" :: nil) SourceAny with
    | inr qerr =>
      (Return (false, Some (Errorf_fs "zfs get encryption enabled" fs
                              (withMessage qerr "cannot get `encryption` property"))), s2)
    | inl props =>
      let val := Get props "encryption" in
      if String.eqb val EmptyString then
        (Panic "zfs get should return a value for `encryption`", s2)
      else if String.eqb val "-" then
        (Return (false, Some (Errorf_fs "zfs get encryption enabled" fs
          (errorString ("`encryption` property should never be " +:+ dq +:+ "-" +:+ dq)))), s2)
      else if String.eqb val "off" then (Return (false, None), s2)
      else (Return (true, None), s2)
    end.
Proof.
  intros E V t1 s2. subst t1 s2. gate_unfold. rewrite E. simpl. rewrite V. simpl.
  destruct (zfsGet W _ ctx fs _ SourceAny) as [props|qerr]; [| reflexivity].
  cbv zeta.
  destruct (String.eqb (Get props "encryption") EmptyString); [reflexivity |].
  destruct (String.eqb (Get props "encryption") "-"); [reflexivity |].
  destruct (String.eqb (Get props "encryption") "off"); reflexivity.
Qed.

(** With the capability present, [ZFSGetKeyUnloaded] queries at once. *)
Lemma unloaded_supported (ctx : context) (fs : string) (s s1 : state) :
  EncryptionCLISupported W ctx s = (Return (true, None), s1) ->
  let s2 := mkState (encryptionCLISupport s1)
                    (trace s1 ++ EvZfsGet fs ("keystatus" :: nil) SourceAny :: nil) in
  ZFSGetKeyUnloaded W ctx fs s =
    match zfsGet W (trace s1) ctx fs ("keystatus" :: nil) SourceAny with
    | inr qerr =>
      (Return (false, Some (Errorf_fs "zfs get key loaded" fs
                              (withMessage qerr "cannot get `keystatus` property"))), s2)
    | inl props =>
      let val := Get props "keystatus" in
      if String.eqb val EmptyString then
        (Panic "zfs get should return a value for `keystatus`", s2)
      else if String.eqb val "available" then (Return (false, None), s2)
      else if String.eqb val "unavailable" then (Return (true, None), s2)
      else (Panic "Unknown key status", s2)
    end.
Proof.
  intros E s2. subst s2. gate_unfold. rewrite E. simpl.
  destruct (zfsGet W _ ctx fs _ SourceAny) as [props|qerr]; [| reflexivity].
  cbv zeta.
  destruct (String.eqb (Get props "keystatus") EmptyString); [reflexivity |].
  destruct (String.eqb (Get props "keystatus") "available"); [reflexivity |].
  destruct (String.eqb (Get props "keystatus") "unavailable"); reflexivity.
Qed.

(** ** What a call adds to the log *)

Lemma issued_same {A} (m : M A) (s : state) :
  trace (snd (m s)) = trace s -> issued m s = nil.
Proof. intros H. unfold issued. rewrite H. apply drop_all. Qed.

Lemma issued_app {A} (m : M A) (s : state) (u : list event) :
  trace (snd (m s)) = trace s ++ u -> issued m s = u.
Proof. intros H. unfold issued. rewrite H. apply drop_length_app. Qed.

Lemma issued_probe (ctx : context) (s : state) :
  issued (EncryptionCLISupported W ctx) s =
    if once_done (encryptionCLISupport s) then nil
    else EvCommand "zfs" ("load-key" :: nil) :: nil.
Proof.
  destruct (once_done (encryptionCLISupport s)) eqn:H.
  - apply issued_same. rewrite (EncryptionCLISupported_cached ctx s H). reflexivity.
  - apply issued_app. pose proof (EncryptionCLISupported_first ctx s H) as E.
    cbv zeta in E. rewrite E. reflexivity.
Qed.

(** ** The gates when the capability is absent *)

(** C1: whenever the capability probe completes without error and reports
    unsupported, [ZFSGetEncryptionEnabled] and [ZFSGetKeyUnloaded] both
    return (false, nil) for every dataset name, and neither of them issues a
    property query. *)
Theorem unsupported_short_circuit (ctx : context) (fs : string) (s : state) :
  fst (EncryptionCLISupported W ctx s) = Return (false, None) ->
  fst (ZFSGetEncryptionEnabled W ctx fs s) = Return (false, None) /\
  fst (ZFSGetKeyUnloaded W ctx fs s) = Return (false, None) /\
  count is_query (issued (ZFSGetEncryptionEnabled W ctx fs) s) = 0 /\
  count is_query (issued (ZFSGetKeyUnloaded W ctx fs) s) = 0.
Proof.
  intros H.
  destruct (EncryptionCLISupported W ctx s) as [r s1] eqn:E. simpl in H. subst r.
  destruct (gate_unsupported ctx fs s s1 E) as [G1 G2].
  assert (P : issued (EncryptionCLISupported W ctx) s = drop (List.length (trace s)) (trace s1))
    by (unfold issued; rewrite E; reflexivity).
  assert (Q : count is_query (drop (List.length (trace s)) (trace s1)) = 0).
  { rewrite <- P, issued_probe. destruct (once_done _); reflexivity. }
  unfold issued. rewrite G1, G2. simpl. auto.
Qed.

(** ** Reading the [encryption] property *)

(** C2: for a dataset whose name validates, with the capability supported
    and the query answered, [ZFSGetEncryptionEnabled] maps the value of the
    [encryption] property as follows: "off" gives (false, nil); "-" gives
    false with the data-integrity error; any other non-empty value gives
    (true, nil); the empty value panics instead of returning an error. *)
Theorem encryption_value_mapping (ctx : context) (fs : string) (s : state)
  (props : gmap string string) :
  fst (EncryptionCLISupported W ctx s) = Return (true, None) ->
  validateZFSFilesystem W fs = None ->
  zfsGet W (trace (snd (EncryptionCLISupported W ctx s)) ++ EvValidate fs :: nil)
         ctx fs ("encryption" :: nil) SourceAny = inl props ->
  let val := Get props "encryption" in
  let r := fst (ZFSGetEncryptionEnabled W ctx fs s) in
  (val = "off" -> r = Return (false, None)) /\
  (val = "-" ->
   r = Return (false, Some (Errorf_fs "zfs get encryption enabled" fs
         (errorString ("`encryption` property should never be " +:+ dq +:+ "-" +:+ dq))))) /\
  (val <> EmptyString -> val <> "-" -> val <> "off" -> r = Return (true, None)) /\
  (val = EmptyString -> r = Panic "zfs get should return a value for `encryption`").
Proof.
  intros H V Q val r. subst val r.
  destruct (EncryptionCLISupported W ctx s) as [r0 s1] eqn:E. simpl in H, Q. subst r0.
  pose proof (enabled_supported_valid ctx fs s s1 E V) as G. cbv zeta in G.
  rewrite Q in G. rewrite G. clear G.
  repeat split.
  - intros ->. reflexivity.
  - intros ->. reflexivity.
  - intros N1 N2 N3.
    apply String.eqb_neq in N1, N2, N3. rewrite N1, N2, N3. reflexivity.
  - intros ->. reflexivity.
Qed.

(** ** Reading the [keystatus] property *)

(** C3: with the capability supported and the query answered,
    [ZFSGetKeyUnloaded] maps the value of the [keystatus] property as
    follows: "available" gives (false, nil); "unavailable" gives (true, nil);
    any other non-empty value panics with the unknown-status message; the
    empty value panics with the missing-value message. *)
Theorem keystatus_value_mapping (ctx : context) (fs : string) (s : state)
  (props : gmap string string) :
  fst (EncryptionCLISupported W ctx s) = Return (true, None) ->
  zfsGet W (trace (snd (EncryptionCLISupported W ctx s)))
         ctx fs ("keystatus" :: nil) SourceAny = inl props ->
  let val := Get props "keystatus" in
  let r := fst (ZFSGetKeyUnloaded W ctx fs s) in
  (val = "available" -> r = Return (false, None)) /\
  (val = "unavailable" -> r = Return (true, None)) /\
  (val <> EmptyString -> val <> "available" -> val <> "unavailable" ->
   r = Panic "Unknown key status") /\
  (val = EmptyString -> r = Panic "zfs get should return a value for `keystatus`").
Proof.
  intros H Q val r. subst val r.
  destruct (EncryptionCLISupported W ctx s) as [r0 s1] eqn:E. simpl in H, Q. subst r0.
  pose proof (unloaded_supported ctx fs s s1 E) as G. cbv zeta in G.
  rewrite Q in G. rewrite G. clear G.
  repeat split.
  - intros ->. reflexivity.
  - intros ->. reflexivity.
  - intros N1 N2 N3.
    apply String.eqb_neq in N1, N2, N3. rewrite N1, N2, N3. reflexivity.
  - intros ->. reflexivity.
Qed.

(** ** What the probe records *)

(** C4: the probe records an error exactly when the subprocess did not
    terminate normally, that is when the command error is non-nil and is
    either no exit error at all or an exit error of a process that did not
    exit; the recorded error is then the command error wrapped.  When the
    subprocess exited (with a non-zero status, as an exit error reports), no
    error is recorded. *)
Theorem probe_error_recorded (ctx : context) (s : state) :
  encryptionCLISupport s = zero_CLISupport ->
  let cerr := snd (CombinedOutput W (trace s) ctx "zfs" ("load-key" :: nil)) in
  let recorded := err (encryptionCLISupport (snd (EncryptionCLISupported W ctx s))) in
  (recorded <> None <->
   exists e, cerr = Some e /\ forall ps, e = ExitError ps -> Exited ps = false) /\
  (recorded <> None ->
   recorded = errors_Wrap cerr "native encryption cli support feature check failed") /\
  (forall ps, cerr = Some (ExitError ps) -> Exited ps = true -> recorded = None).
Proof.
  intros Z cerr recorded. subst cerr recorded.
  assert (H : once_done (encryptionCLISupport s) = false) by (rewrite Z; reflexivity).
  pose proof (EncryptionCLISupported_first ctx s H) as E. cbv zeta in E.
  rewrite E. simpl. rewrite Z. simpl. clear E.
  destruct (CombinedOutput W (trace s) ctx "zfs" ("load-key" :: nil)) as [output cerr].
  simpl. unfold probe_err.
  destruct cerr as [[ps| | | |]|]; simpl;
    try (split; [split; [intros _; eexists; split; [reflexivity | intros ps' D; discriminate D]
                        | intros _; discriminate]
                | split; [reflexivity | intros ps' D; discriminate D]]).
  - destruct (Exited ps) eqn:X; simpl.
    + split; [split; [intros N; contradiction N; reflexivity |] |].
      * intros [e [He Hps]]. injection He as <-.
        specialize (Hps ps eq_refl). congruence.
      * split; [intros N; contradiction N; reflexivity | reflexivity].
    + split; [split; [| intros _; discriminate] |].
      * intros _. exists (ExitError ps). split; [reflexivity |].
        intros ps' D. injection D as <-. exact X.
      * split; [reflexivity |]. intros ps' D. injection D as <-. congruence.
  - split; [split; [intros N; contradiction N; reflexivity |] |].
    + intros [e [He _]]. discriminate He.
    + split; [intros N; contradiction N; reflexivity | intros ps D; discriminate D].
Qed.

(** C5: the cached supported flag is the override when the environment sets
    it; otherwise it is true exactly when the combined output of the probe
    contains both "load-key" and "keylocation", whatever that output is. *)
Theorem supported_flag (ctx : context) (s : state) :
  once_done (encryptionCLISupport s) = false ->
  let output := fst (CombinedOutput W (trace s) ctx "zfs" ("load-key" :: nil)) in
  let flag := supported (encryptionCLISupport (snd (EncryptionCLISupported W ctx s))) in
  (forall b, getenv W probe_name = Some b -> flag = b) /\
  (getenv W probe_name = None ->
   (flag = true <->
    (exists a b, output = a +:+ "load-key" +:+ b) /\
    (exists a b, output = a +:+ "keylocation" +:+ b))).
Proof.
  intros H output flag. subst output flag.
  pose proof (EncryptionCLISupported_first ctx s H) as E. cbv zeta in E.
  rewrite E. simpl. clear E.
  unfold probe_supported, envconst_Bool. split.
  - intros b ->. reflexivity.
  - intros ->. rewrite andb_true_iff, !Contains_spec. reflexivity.
Qed.

(** ** Validation *)

(** C7: with the capability supported, a dataset name the validator rejects
    makes [ZFSGetEncryptionEnabled] return false with the validator's error
    wrapped together with the dataset name, and no property query is issued
    (the only collaborator called after the probe is the validator). *)
Theorem invalid_name_rejected (ctx : context) (fs : string) (s : state) (e : error) :
  fst (EncryptionCLISupported W ctx s) = Return (true, None) ->
  validateZFSFilesystem W fs = Some e ->
  fst (ZFSGetEncryptionEnabled W ctx fs s) =
    Return (false, Some (Errorf_fs "zfs get encryption enabled" fs e)) /\
  issued (ZFSGetEncryptionEnabled W ctx fs) s =
    issued (EncryptionCLISupported W ctx) s ++ EvValidate fs :: nil /\
  count is_query (issued (ZFSGetEncryptionEnabled W ctx fs) s) = 0.
Proof.
  intros H V.
  destruct (EncryptionCLISupported W ctx s) as [r s1] eqn:E. simpl in H. subst r.
  rewrite (enabled_supported_invalid ctx fs s s1 e E V). simpl.
  split; [reflexivity |].
  assert (P : issued (ZFSGetEncryptionEnabled W ctx fs) s =
              issued (EncryptionCLISupported W ctx) s ++ EvValidate fs :: nil).
  { destruct (EncryptionCLISupported_returns ctx s) as (b & e' & s1' & E' & _ & T).
    rewrite E in E'. injection E' as _ _ <-.
    unfold issued at 1 2.
    rewrite (enabled_supported_invalid ctx fs s s1 e E V), E. simpl.
    destruct T as [T|T]; rewrite T.
    - rewrite drop_all. apply drop_length_app.
    - unfold probe_trace. rewrite <- app_assoc, !drop_length_app. reflexivity. }
  split; [exact P |].
  rewrite P, count_app, issued_probe. destruct (once_done _); reflexivity.
Qed.

(** C9: [ZFSGetKeyUnloaded] never calls the name validator, whatever the
    dataset name and the state; with the capability supported, the one thing
    it does after the probe is the [keystatus] query. *)
Theorem key_unloaded_skips_validation (ctx : context) (fs : string) (s : state) :
  count is_validate (issued (ZFSGetKeyUnloaded W ctx fs) s) = 0 /\
  (fst (EncryptionCLISupported W ctx s) = Return (true, None) ->
   issued (ZFSGetKeyUnloaded W ctx fs) s =
     issued (EncryptionCLISupported W ctx) s ++
     EvZfsGet fs ("keystatus" :: nil) SourceAny :: nil).
Proof.
  destruct (EncryptionCLISupported_returns ctx s) as (b & e & s1 & E & _ & T).
  assert (P : issued (EncryptionCLISupported W ctx) s =
              drop (List.length (trace s)) (trace s1))
    by (unfold issued; rewrite E; reflexivity).
  assert (Q : forall u, drop (List.length (trace s)) (trace s1 ++ u) =
                        issued (EncryptionCLISupported W ctx) s ++ u).
  { intros u. rewrite P. destruct T as [T|T]; rewrite T.
    - rewrite drop_all. apply drop_length_app.
    - unfold probe_trace. rewrite <- app_assoc, !drop_length_app. reflexivity. }
  assert (V0 : count is_validate (issued (EncryptionCLISupported W ctx) s) = 0)
    by (rewrite issued_probe; destruct (once_done _); reflexivity).
  assert (S : fst (EncryptionCLISupported W ctx s) = Return (true, None) ->
              issued (ZFSGetKeyUnloaded W ctx fs) s =
                issued (EncryptionCLISupported W ctx) s ++
                EvZfsGet fs ("keystatus" :: nil) SourceAny :: nil).
  { intros H. rewrite E in H. simpl in H. injection H as -> ->.
    pose proof (unloaded_supported ctx fs s s1 E) as G. cbv zeta in G.
    unfold issued at 1. rewrite G.
    destruct (zfsGet W _ ctx fs _ SourceAny) as [props|qerr]; simpl; [| apply Q].
    destruct (String.eqb (Get props "keystatus") EmptyString); [apply Q |].
    destruct (String.eqb (Get props "keystatus") "available"); [apply Q |].
    destruct (String.eqb (Get props "keystatus") "unavailable"); apply Q. }
  split; [| exact S].
  destruct e as [e|].
  - destruct (gate_probe_error ctx fs s s1 b e E) as [_ G].
    unfold issued at 1. rewrite G. simpl. rewrite <- P. exact V0.
  - destruct b.
    + rewrite S by (rewrite E; reflexivity).
      rewrite count_app, V0. reflexivity.
    + destruct (gate_unsupported ctx fs s s1 E) as [_ G].
      unfold issued at 1. rewrite G. simpl. rewrite <- P. exact V0.
Qed.

(** ** Errors come with false *)

(** C10: whenever [ZFSGetEncryptionEnabled] or [ZFSGetKeyUnloaded] returns a
    non-nil error, the boolean returned with it is false. *)
Theorem error_comes_with_false (ctx : context) (fs : string) (s : state)
  (b : bool) (e : error) :
  fst (ZFSGetEncryptionEnabled W ctx fs s) = Return (b, Some e) \/
  fst (ZFSGetKeyUnloaded W ctx fs s) = Return (b, Some e) ->
  b = false.
Proof.
  destruct (EncryptionCLISupported_returns ctx s) as (b0 & e0 & s1 & E & _ & _).
  destruct e0 as [e0|].
  - destruct (gate_probe_error ctx fs s s1 b0 e0 E) as [G1 G2].
    rewrite G1, G2. simpl. intros [H|H]; congruence.
  - destruct b0.
    + intros [H|H].
      * destruct (validateZFSFilesystem W fs) as [ve|] eqn:V.
        -- rewrite (enabled_supported_invalid ctx fs s s1 ve E V) in H.
           simpl in H. congruence.
        -- pose proof (enabled_supported_valid ctx fs s s1 E V) as G. cbv zeta in G.
           rewrite G in H. clear G.
           destruct (zfsGet W _ ctx fs _ SourceAny) as [props|qerr];
             [| simpl in H; congruence].
           destruct (String.eqb (Get props "encryption") EmptyString);
             [simpl in H; discriminate H |].
           destruct (String.eqb (Get props "encryption") "-");
             [simpl in H; congruence |].
           destruct (String.eqb (Get props "encryption") "off");
             simpl in H; congruence.
      * pose proof (unloaded_supported ctx fs s s1 E) as G. cbv zeta in G.
        rewrite G in H. clear G.
        destruct (zfsGet W _ ctx fs _ SourceAny) as [props|qerr];
          [| simpl in H; congruence].
        destruct (String.eqb (Get props "keystatus") EmptyString);
          [simpl in H; discriminate H |].
        destruct (String.eqb (Get props "keystatus") "available");
          [simpl in H; congruence |].
        destruct (String.eqb (Get props "keystatus") "unavailable");
          simpl in H; congruence.
    + destruct (gate_unsupported ctx fs s s1 E) as [G1 G2].
      rewrite G1, G2. simpl. intros [H|H]; congruence.
Qed.

(** ** Sequences of calls *)

(** Every call starts with the probe and then only appends events that are
    not commands; the cache is as the probe left it. *)
Lemma run_call_frame (c : call context) (s : state) :
  exists u,
    snd (run_call W c s) =
      mkState (encryptionCLISupport (snd (EncryptionCLISupported W (call_ctx c) s)))
              (trace (snd (EncryptionCLISupported W (call_ctx c) s)) ++ u) /\
    count is_command u = 0.
Proof.
  destruct (EncryptionCLISupported_returns (call_ctx c) s) as (b & e & s1 & E & _ & _).
  rewrite E. simpl.
  assert (N : snd (Return (b, e), s1) = mkState (encryptionCLISupport s1) (trace s1 ++ nil))
    by (destruct s1; simpl; rewrite app_nil_r; reflexivity).
  destruct c as [ctx|ctx fs|ctx fs]; simpl in E |- *.
  - exists nil. rewrite E. split; [exact N | reflexivity].
  - destruct e as [e|]; [| destruct b].
    + destruct (gate_probe_error ctx fs s s1 b e E) as [G _]. rewrite G.
      exists nil. split; [exact N | reflexivity].
    + destruct (validateZFSFilesystem W fs) as [ve|] eqn:V.
      * rewrite (enabled_supported_invalid ctx fs s s1 ve E V).
        exists (EvValidate fs :: nil). split; reflexivity.
      * pose proof (enabled_supported_valid ctx fs s s1 E V) as G. cbv zeta in G.
        rewrite G. clear G.
        exists (EvValidate fs :: EvZfsGet fs ("encryption" :: nil) SourceAny :: nil).
        split; [| reflexivity].
        rewrite <- app_assoc. simpl.
        destruct (zfsGet W _ ctx fs _ SourceAny) as [props|qerr]; [| reflexivity].
        destruct (String.eqb (Get props "encryption") EmptyString); [reflexivity |].
        destruct (String.eqb (Get props "encryption") "-"); [reflexivity |].
        destruct (String.eqb (Get props "encryption") "off"); reflexivity.
    + destruct (gate_unsupported ctx fs s s1 E) as [G _]. rewrite G.
      exists nil. split; [exact N | reflexivity].
  - destruct e as [e|]; [| destruct b].
    + destruct (gate_probe_error ctx fs s s1 b e E) as [_ G]. rewrite G.
      exists nil. split; [exact N | reflexivity].
    + pose proof (unloaded_supported ctx fs s s1 E) as G. cbv zeta in G.
      rewrite G. clear G.
      exists (EvZfsGet fs ("keystatus" :: nil) SourceAny :: nil).
      split; [| reflexivity].
      destruct (zfsGet W _ ctx fs _ SourceAny) as [props|qerr]; [| reflexivity].
      destruct (String.eqb (Get props "keystatus") EmptyString); [reflexivity |].
      destruct (String.eqb (Get props "keystatus") "available"); [reflexivity |].
      destruct (String.eqb (Get props "keystatus") "unavailable"); reflexivity.
    + destruct (gate_unsupported ctx fs s s1 E) as [_ G]. rewrite G.
      exists nil. split; [exact N | reflexivity].
Qed.

(** Once the once has fired, a call neither changes the cache nor runs the
    subprocess. *)
Lemma run_call_cached (c : call context) (s : state) :
  once_done (encryptionCLISupport s) = true ->
  encryptionCLISupport (snd (run_call W c s)) = encryptionCLISupport s /\
  count is_command (trace (snd (run_call W c s))) = count is_command (trace s).
Proof.
  intros H. destruct (run_call_frame c s) as (u & F & U).
  rewrite F, (EncryptionCLISupported_cached (call_ctx c) s H). simpl.
  rewrite count_app, U. split; [reflexivity | lia].
Qed.

(** Before that, a call runs the subprocess exactly once and fills the
    cache from its answer. *)
Lemma run_call_first (c : call context) (s : state) :
  once_done (encryptionCLISupport s) = false ->
  let r := CombinedOutput W (trace s) (call_ctx c) "zfs" ("load-key" :: nil) in
  encryptionCLISupport (snd (run_call W c s)) =
    mkCLISupport true (probe_supported W (fst r))
                 (probe_err (snd r) (err (encryptionCLISupport s))) /\
  count is_command (trace (snd (run_call W c s))) = S (count is_command (trace s)).
Proof.
  intros H r. subst r. destruct (run_call_frame c s) as (u & F & U).
  pose proof (EncryptionCLISupported_first (call_ctx c) s H) as E. cbv zeta in E.
  rewrite F, E. simpl. unfold probe_trace.
  rewrite !count_app, U. split; [reflexivity |]. unfold count. simpl. lia.
Qed.

Lemma run_calls_cons (c : call context) (cs : list (call context)) (s : state) :
  run_calls W (c :: cs) s =
    (fst (run_call W c s) :: fst (run_calls W cs (snd (run_call W c s))),
     snd (run_calls W cs (snd (run_call W c s)))).
Proof.
  simpl. destruct (run_call W c s) as [r s1]. simpl.
  destruct (run_calls W cs s1) as [rs s2]. reflexivity.
Qed.

Lemma run_calls_cached (cs : list (call context)) (s : state) :
  once_done (encryptionCLISupport s) = true ->
  encryptionCLISupport (snd (run_calls W cs s)) = encryptionCLISupport s /\
  count is_command (trace (snd (run_calls W cs s))) = count is_command (trace s).
Proof.
  revert s. induction cs as [|c cs IH]; intros s H.
  - split; reflexivity.
  - rewrite run_calls_cons. simpl.
    destruct (run_call_cached c s H) as [C N].
    destruct (IH (snd (run_call W c s))) as [C' N']; [rewrite C; exact H |].
    rewrite C', N', C, N. split; reflexivity.
Qed.

(** C8: over any sequence of calls to the three functions from the start of
    the process, the probe subprocess is run at most once (exactly once as
    soon as there is a call), and at every later point a call observes the
    very pair of flag and error that the first call computed from the
    subprocess's answer, without touching the state. *)
Theorem probe_runs_once :
  (forall cs : list (call context),
     count is_command (trace (snd (run_calls W cs init_state))) <= 1) /\
  (forall (c : call context) (cs : list (call context)) (ctx : context),
     let r := CombinedOutput W nil (call_ctx c) "zfs" ("load-key" :: nil) in
     let first := Return (probe_supported W (fst r), probe_err (snd r) None) in
     let s := snd (run_calls W (c :: cs) init_state) in
     fst (EncryptionCLISupported W (call_ctx c) init_state) = first /\
     EncryptionCLISupported W ctx s = (first, s) /\
     count is_command (trace s) = 1).
Proof.
  assert (A : forall (c : call context) (cs : list (call context)) (ctx : context),
     let r := CombinedOutput W nil (call_ctx c) "zfs" ("load-key" :: nil) in
     let first := Return (probe_supported W (fst r), probe_err (snd r) None) in
     let s := snd (run_calls W (c :: cs) init_state) in
     fst (EncryptionCLISupported W (call_ctx c) init_state) = first /\
     EncryptionCLISupported W ctx s = (first, s) /\
     count is_command (trace s) = 1).
  { intros c cs ctx r first s. subst r first s.
    rewrite run_calls_cons. simpl snd.
    destruct (run_call_first c init_state eq_refl) as [C N]. cbv zeta in C.
    simpl in C, N.
    assert (D : once_done (encryptionCLISupport (snd (run_call W c init_state))) = true)
      by (rewrite C; reflexivity).
    destruct (run_calls_cached cs _ D) as [C' N'].
    split; [| split].
    - pose proof (EncryptionCLISupported_first (call_ctx c) init_state eq_refl) as E.
      cbv zeta in E. rewrite E. reflexivity.
    - rewrite EncryptionCLISupported_cached by (rewrite C'; exact D).
      rewrite C', C. reflexivity.
    - rewrite N', N. reflexivity. }
  split; [| exact A].
  intros [|c cs]; [simpl; unfold count; simpl; lia |].
  destruct (A c cs (call_ctx c)) as (_ & _ & N). cbv zeta in N. rewrite N. lia.
Qed.

(** ** A probe that could not be run *)

Lemma run_call_failed (c : call context) (s : state) (supp : bool) (perr : error) :
  encryptionCLISupport s = mkCLISupport true supp (Some perr) ->
  run_call W c s = (failed_outcome supp perr c, s).
Proof.
  intros C.
  assert (E : forall ctx, EncryptionCLISupported W ctx s = (Return (supp, Some perr), s)).
  { intros ctx. rewrite EncryptionCLISupported_cached by (rewrite C; reflexivity).
    rewrite C. reflexivity. }
  destruct c as [ctx|ctx fs|ctx fs]; simpl.
  - apply E.
  - apply (gate_probe_error ctx fs s s supp perr (E ctx)).
  - apply (gate_probe_error ctx fs s s supp perr (E ctx)).
Qed.

Lemma run_calls_failed (cs : list (call context)) (s : state) (supp : bool) (perr : error) :
  encryptionCLISupport s = mkCLISupport true supp (Some perr) ->
  run_calls W cs s = (List.map (failed_outcome supp perr) cs, s).
Proof.
  intros C. induction cs as [|c cs IH]; [reflexivity |].
  rewrite run_calls_cons, (run_call_failed c s supp perr C). simpl.
  rewrite IH. reflexivity.
Qed.

(** C6, amended: when the probe subprocess fails with an error that is not
    an exit error, every call of a run returns that error wrapped (the gates
    return false with it, wrapped once more with their dataset name), the
    run calls neither the validator nor the property query, and the cached
    error is the wrapped error.  The cached flag is still what the override
    or the output says: it is false unless the override sets it or the
    output contains both substrings. *)
Theorem probe_failure_propagates (c : call context) (cs : list (call context)) (e : error) :
  snd (CombinedOutput W nil (call_ctx c) "zfs" ("load-key" :: nil)) = Some e ->
  as_ExitError (Some e) = None ->
  let output := fst (CombinedOutput W nil (call_ctx c) "zfs" ("load-key" :: nil)) in
  let perr := withMessage e "native encryption cli support feature check failed" in
  let supp := probe_supported W output in
  run_calls W (c :: cs) init_state =
    (List.map (failed_outcome supp perr) (c :: cs),
     mkState (mkCLISupport true supp (Some perr))
             (EvCommand "zfs" ("load-key" :: nil) :: nil)) /\
  (getenv W probe_name = None ->
   Contains output "load-key" && Contains output "keylocation" = false ->
   supp = false).
Proof.
  intros Hc Hx output perr supp. subst output perr supp. split.
  - pose proof (EncryptionCLISupported_first (call_ctx c) init_state eq_refl) as E.
    cbv zeta in E. simpl in E. rewrite Hc in E.
    unfold probe_err in E. rewrite Hx in E. simpl in E. unfold probe_trace in E. simpl in E.
    set (supp := probe_supported W _) in *.
    set (perr := withMessage e _) in *.
    set (s1 := mkState (mkCLISupport true supp (Some perr)) _) in *.
    assert (R : run_call W c init_state = (failed_outcome supp perr c, s1)).
    { destruct c as [ctx|ctx fs|ctx fs]; simpl in *.
      - exact E.
      - apply (gate_probe_error ctx fs init_state s1 supp perr E).
      - apply (gate_probe_error ctx fs init_state s1 supp perr E). }
    rewrite run_calls_cons, R. simpl fst. simpl snd.
    rewrite (run_calls_failed cs s1 supp perr eq_refl). reflexivity.
  - intros G N. unfold probe_supported, envconst_Bool. rewrite G. exact N.
Qed.

End Properties.

(** * The theorems at work on the sample environments *)

Import Samples.

Lemma unsupported_short_circuit_witness :
  fst (ZFSGetEncryptionEnabled legacy_zfs tt "pool/secret" init_state) = Return (false, None) /\
  fst (ZFSGetKeyUnloaded legacy_zfs tt "pool/secret" init_state) = Return (false, None) /\
  count is_query (issued (ZFSGetEncryptionEnabled legacy_zfs tt "pool/secret") init_state) = 0 /\
  count is_query (issued (ZFSGetKeyUnloaded legacy_zfs tt "pool/secret") init_state) = 0.
Proof.
  apply (unsupported_short_circuit legacy_zfs tt "pool/secret" init_state).
  vm_compute. reflexivity.
Defined.

Lemma encryption_value_mapping_witness :
  fst (ZFSGetEncryptionEnabled modern_zfs tt "pool/secret" init_state) = Return (true, None) /\
  fst (ZFSGetEncryptionEnabled modern_zfs tt "pool/plain" init_state) = Return (false, None).
Proof.
  assert (P : fst (EncryptionCLISupported modern_zfs tt init_state) = Return (true, None))
    by (vm_compute; reflexivity).
  assert (N1 : Get secret_props "encryption" <> EmptyString) by (vm_compute; discriminate).
  assert (N2 : Get secret_props "encryption" <> "-") by (vm_compute; discriminate).
  assert (N3 : Get secret_props "encryption" <> "off") by (vm_compute; discriminate).
  assert (O : Get plain_props "encryption" = "off") by (vm_compute; reflexivity).
  split.
  - exact (proj1 (proj2 (proj2
      (encryption_value_mapping modern_zfs tt "pool/secret" init_state secret_props
         P eq_refl eq_refl))) N1 N2 N3).
  - exact (proj1
      (encryption_value_mapping modern_zfs tt "pool/plain" init_state plain_props
         P eq_refl eq_refl) O).
Defined.

Lemma keystatus_value_mapping_witness :
  fst (ZFSGetKeyUnloaded modern_zfs tt "pool/secret" init_state) = Return (true, None) /\
  fst (ZFSGetKeyUnloaded modern_zfs tt "pool/plain" init_state) = Panic "Unknown key status".
Proof.
  assert (P : fst (EncryptionCLISupported modern_zfs tt init_state) = Return (true, None))
    by (vm_compute; reflexivity).
  assert (U : Get secret_props "keystatus" = "unavailable") by (vm_compute; reflexivity).
  assert (N1 : Get plain_props "keystatus" <> EmptyString) by (vm_compute; discriminate).
  assert (N2 : Get plain_props "keystatus" <> "available") by (vm_compute; discriminate).
  assert (N3 : Get plain_props "keystatus" <> "unavailable") by (vm_compute; discriminate).
  split.
  - exact (proj1 (proj2
      (keystatus_value_mapping modern_zfs tt "pool/secret" init_state secret_props
         P eq_refl)) U).
  - exact (proj1 (proj2 (proj2
      (keystatus_value_mapping modern_zfs tt "pool/plain" init_state plain_props
         P eq_refl))) N1 N2 N3).
Defined.

Lemma probe_error_recorded_witness :
  err (encryptionCLISupport (snd (EncryptionCLISupported missing_zfs tt init_state))) <> None /\
  err (encryptionCLISupport (snd (EncryptionCLISupported modern_zfs tt init_state))) = None.
Proof.
  split.
  - apply (proj1 (probe_error_recorded missing_zfs tt init_state eq_refl)).
    exists not_found. split; [reflexivity | intros ps D; discriminate D].
  - apply (proj2 (proj2 (probe_error_recorded modern_zfs tt init_state eq_refl))
             (mkProcessState true 2)); reflexivity.
Defined.

Lemma supported_flag_witness :
  supported (encryptionCLISupport (snd (EncryptionCLISupported modern_zfs tt init_state))) = true /\
  supported (encryptionCLISupport (snd (EncryptionCLISupported missing_zfs_forced tt init_state))) = true.
Proof.
  split.
  - apply (proj2 (supported_flag modern_zfs tt init_state eq_refl) eq_refl).
    split.
    + exists "usage: ", " [-rn] [-L <keylocation>] <-a | filesystem|volume>". reflexivity.
    + exists "usage: load-key [-rn] [-L <", ">] <-a | filesystem|volume>". reflexivity.
  - apply (proj1 (supported_flag missing_zfs_forced tt init_state eq_refl)).
    reflexivity.
Defined.

Lemma invalid_name_rejected_witness :
  fst (ZFSGetEncryptionEnabled modern_zfs tt "pool/secret@monday" init_state) =
    Return (false, Some (Errorf_fs "zfs get encryption enabled" "pool/secret@monday"
                           (ForeignError "invalid character in dataset name"))) /\
  issued (ZFSGetEncryptionEnabled modern_zfs tt "pool/secret@monday") init_state =
    issued (EncryptionCLISupported modern_zfs tt) init_state ++
    EvValidate "pool/secret@monday" :: nil /\
  count is_query (issued (ZFSGetEncryptionEnabled modern_zfs tt "pool/secret@monday") init_state) = 0.
Proof.
  apply (invalid_name_rejected modern_zfs tt "pool/secret@monday" init_state);
    vm_compute; reflexivity.
Defined.

Lemma error_comes_with_false_witness :
  exists b e,
    fst (ZFSGetKeyUnloaded modern_zfs tt "pool/nowhere" init_state) = Return (b, Some e) /\
    b = false.
Proof.
  eexists _, _. split; [vm_compute; reflexivity |].
  eapply (error_comes_with_false modern_zfs tt "pool/nowhere" init_state).
  right. vm_compute. reflexivity.
Defined.

Lemma probe_failure_propagates_witness :
  fst (run_calls missing_zfs
         (CallEncryptionEnabled tt "pool/secret" :: CallKeyUnloaded tt "pool/plain" :: nil)
         init_state) =
    Return (false, Some (Errorf_fs "zfs get encryption enabled" "pool/secret"
      (withMessage not_found "native encryption cli support feature check failed"))) ::
    Return (false, Some (Errorf_fs "zfs get key loaded" "pool/plain"
      (withMessage not_found "native encryption cli support feature check failed"))) :: nil.
Proof.
  rewrite (proj1 (probe_failure_propagates missing_zfs
                    (CallEncryptionEnabled tt "pool/secret")
                    (CallKeyUnloaded tt "pool/plain" :: nil) not_found eq_refl eq_refl)).
  reflexivity.
Defined.

(** C6 as stated fails: with the override set, the binary missing and the
    probe error recorded, the cached flag is nevertheless true. *)
Lemma forced_flag_survives_probe_failure :
  snd (CombinedOutput missing_zfs_forced nil tt "zfs" ("load-key" :: nil)) = Some not_found /\
  as_ExitError (Some not_found) = None /\
  EncryptionCLISupported missing_zfs_forced tt init_state =
    (Return (true, Some (withMessage not_found
               "native encryption cli support feature check failed")),
     mkState (mkCLISupport true true (Some (withMessage not_found
               "native encryption cli support feature check failed")))
             (EvCommand "zfs" ("load-key" :: nil) :: nil)).
Proof. repeat split. Qed.

(** * Further properties of the two gates and of runs *)

Lemma append_assoc (a b c : string) : (a +:+ b) +:+ c = a +:+ b +:+ c.
Proof. induction a as [|x a IH]; [reflexivity |]. rewrite !append_String, IH. reflexivity. Qed.

Section Paths.

Context {context : Type}.
Variable W : Collaborators context.

(** Every way through [ZFSGetEncryptionEnabled], as one equation [G] per
    path, with the facts that select the path. *)
Ltac enabled_paths ctx fs s :=
  let b0 := fresh "b0" in
  let e0 := fresh "e0" in
  destruct (EncryptionCLISupported_returns W ctx s) as (b0 & e0 & s1 & E & C & T);
  destruct e0 as [e0|];
  [ destruct (gate_probe_error W ctx fs s s1 b0 e0 E) as [G _]
  | destruct b0;
    [ destruct (validateZFSFilesystem W fs) as [ve|] eqn:V;
      [ pose proof (enabled_supported_invalid W ctx fs s s1 ve E V) as G
      | pose proof (enabled_supported_valid W ctx fs s s1 E V) as G; cbv zeta in G;
        destruct (zfsGet W (trace s1 ++ EvValidate fs :: nil) ctx fs
                         ("encryption" :: nil) SourceAny) as [props|qerr] eqn:Q;
        [ destruct (String.eqb (Get props "encryption") EmptyString) eqn:V1;
          [ | destruct (String.eqb (Get props "encryption") "-") eqn:V2;
              [ | destruct (String.eqb (Get props "encryption") "off") eqn:V3 ] ]
        | ] ]
    | destruct (gate_unsupported W ctx fs s s1 E) as [G _] ] ].

(** The same for [ZFSGetKeyUnloaded]. *)
Ltac unloaded_paths ctx fs s :=
  let b0 := fresh "b0" in
  let e0 := fresh "e0" in
  destruct (EncryptionCLISupported_returns W ctx s) as (b0 & e0 & s1 & E & C & T);
  destruct e0 as [e0|];
  [ destruct (gate_probe_error W ctx fs s s1 b0 e0 E) as [_ G]
  | destruct b0;
    [ pose proof (unloaded_supported W ctx fs s s1 E) as G; cbv zeta in G;
      destruct (zfsGet W (trace s1) ctx fs ("keystatus" :: nil) SourceAny)
        as [props|qerr] eqn:Q;
      [ destruct (String.eqb (Get props "keystatus") EmptyString) eqn:V1;
        [ | destruct (String.eqb (Get props "keystatus") "available") eqn:V2;
            [ | destruct (String.eqb (Get props "keystatus") "unavailable") eqn:V3 ] ]
      | ]
    | destruct (gate_unsupported W ctx fs s s1 E) as [_ G] ] ].

(** ** A query that fails *)

(** X1: with the capability present and the name accepted, a failing
    [encryption] query makes [ZFSGetEncryptionEnabled] return false with the
    query's error wrapped twice: by errors.Wrap with the property's message
    and by the deferred closure with the dataset name. *)
Theorem enabled_query_failure (ctx : context) (fs : string) (s : state) (qerr : error) :
  fst (EncryptionCLISupported W ctx s) = Return (true, None) ->
  validateZFSFilesystem W fs = None ->
  zfsGet W (trace (snd (EncryptionCLISupported W ctx s)) ++ EvValidate fs :: nil)
         ctx fs ("encryption" :: nil) SourceAny = inr qerr ->
  fst (ZFSGetEncryptionEnabled W ctx fs s) =
    Return (false, Some (Errorf_fs "zfs get encryption enabled" fs
                           (withMessage qerr "cannot get `encryption` property"))).
Proof.
  intros H V Q.
  destruct (EncryptionCLISupported W ctx s) as [r s1] eqn:E. simpl in H, Q. subst r.
  pose proof (enabled_supported_valid W ctx fs s s1 E V) as G. cbv zeta in G.
  rewrite Q in G. rewrite G. reflexivity.
Qed.

(** X2: with the capability present, a failing [keystatus] query makes
    [ZFSGetKeyUnloaded] return false with the query's error wrapped by
    errors.Wrap and then by the deferred closure with the dataset name. *)
Theorem unloaded_query_failure (ctx : context) (fs : string) (s : state) (qerr : error) :
  fst (EncryptionCLISupported W ctx s) = Return (true, None) ->
  zfsGet W (trace (snd (EncryptionCLISupported W ctx s)))
         ctx fs ("keystatus" :: nil) SourceAny = inr qerr ->
  fst (ZFSGetKeyUnloaded W ctx fs s) =
    Return (false, Some (Errorf_fs "zfs get key loaded" fs
                           (withMessage qerr "cannot get `keystatus` property"))).
Proof.
  intros H Q.
  destruct (EncryptionCLISupported W ctx s) as [r s1] eqn:E. simpl in H, Q. subst r.
  pose proof (unloaded_supported W ctx fs s s1 E) as G. cbv zeta in G.
  rewrite Q in G. rewrite G. reflexivity.
Qed.

(** ** What an answer of true means *)

(** X3: [ZFSGetEncryptionEnabled] answers true only without an error, with
    the capability present, the name accepted, and the query answering an
    [encryption] value that is neither empty nor "-" nor "off". *)
Theorem enabled_true_inversion (ctx : context) (fs : string) (s : state)
  (e : option error) :
  fst (ZFSGetEncryptionEnabled W ctx fs s) = Return (true, e) ->
  e = None /\
  fst (EncryptionCLISupported W ctx s) = Return (true, None) /\
  validateZFSFilesystem W fs = None /\
  exists props,
    zfsGet W (trace (snd (EncryptionCLISupported W ctx s)) ++ EvValidate fs :: nil)
           ctx fs ("encryption" :: nil) SourceAny = inl props /\
    Get props "encryption" <> EmptyString /\
    Get props "encryption" <> "-" /\
    Get props "encryption" <> "off".
Proof.
  intros H. enabled_paths ctx fs s; rewrite G in H; simpl in H; try discriminate H.
  injection H as <-. rewrite E. simpl. rewrite Q.
  apply String.eqb_neq in V1, V2, V3. eauto 10.
Qed.

(** X4: [ZFSGetKeyUnloaded] answers true only without an error, with the
    capability present and the query answering [keystatus] "unavailable". *)
Theorem unloaded_true_inversion (ctx : context) (fs : string) (s : state)
  (e : option error) :
  fst (ZFSGetKeyUnloaded W ctx fs s) = Return (true, e) ->
  e = None /\
  fst (EncryptionCLISupported W ctx s) = Return (true, None) /\
  exists props,
    zfsGet W (trace (snd (EncryptionCLISupported W ctx s)))
           ctx fs ("keystatus" :: nil) SourceAny = inl props /\
    Get props "keystatus" = "unavailable".
Proof.
  intros H. unloaded_paths ctx fs s; rewrite G in H; simpl in H; try discriminate H.
  injection H as <-. rewrite E. simpl. rewrite Q.
  apply String.eqb_eq in V3. eauto 10.
Qed.

(** ** When the gates panic *)

(** X5: [ZFSGetEncryptionEnabled] panics only when the capability is
    present, the name is accepted and the query answers a property set with
    no (an empty) [encryption] value; the message is then the missing-value
    one.  It never panics on a probe error, an absent capability, a rejected
    name or a failed query. *)
Theorem enabled_panic_inversion (ctx : context) (fs : string) (s : state) (msg : string) :
  fst (ZFSGetEncryptionEnabled W ctx fs s) = Panic msg ->
  msg = "zfs get should return a value for `encryption`" /\
  fst (EncryptionCLISupported W ctx s) = Return (true, None) /\
  validateZFSFilesystem W fs = None /\
  exists props,
    zfsGet W (trace (snd (EncryptionCLISupported W ctx s)) ++ EvValidate fs :: nil)
           ctx fs ("encryption" :: nil) SourceAny = inl props /\
    Get props "encryption" = EmptyString.
Proof.
  intros H. enabled_paths ctx fs s; rewrite G in H; simpl in H; try discriminate H.
  injection H as <-. rewrite E. simpl. rewrite Q.
  apply String.eqb_eq in V1. eauto 10.
Qed.

(** X6: [ZFSGetKeyUnloaded] panics only when the capability is present and
    the query answers a property set whose [keystatus] is empty (the
    missing-value message) or is something other than "available" and
    "unavailable" (the unknown-status message). *)
Theorem unloaded_panic_inversion (ctx : context) (fs : string) (s : state) (msg : string) :
  fst (ZFSGetKeyUnloaded W ctx fs s) = Panic msg ->
  fst (EncryptionCLISupported W ctx s) = Return (true, None) /\
  exists props,
    zfsGet W (trace (snd (EncryptionCLISupported W ctx s)))
           ctx fs ("keystatus" :: nil) SourceAny = inl props /\
    ((Get props "keystatus" = EmptyString /\
      msg = "zfs get should return a value for `keystatus`") \/
     (Get props "keystatus" <> EmptyString /\
      Get props "keystatus" <> "available" /\
      Get props "keystatus" <> "unavailable" /\
      msg = "Unknown key status")).
Proof.
  intros H. unloaded_paths ctx fs s; rewrite G in H; simpl in H; try discriminate H.
  - injection H as <-. rewrite E. simpl. rewrite Q.
    apply String.eqb_eq in V1. eauto 10.
  - injection H as <-. rewrite E. simpl. rewrite Q.
    apply String.eqb_neq in V1, V2, V3. split; [reflexivity |].
    exists props. split; [reflexivity |]. right. auto.
Qed.

(** ** The errors the gates return *)


End Paths.

Section Runs.

Context {context : Type}.
Variable W : Collaborators context.

(** ** The log of one call *)


(** The state a call leaves: the probe's cache, and the probe's log
    followed by the call's own collaborator calls when the capability is
    present. *)
Lemma run_call_state (c : call context) (s : state) :
  snd (run_call W c s) =
    mkState (encryptionCLISupport (snd (EncryptionCLISupported W (call_ctx c) s)))
            (trace (snd (EncryptionCLISupported W (call_ctx c) s)) ++
             if capability_present (fst (EncryptionCLISupported W (call_ctx c) s))
             then call_events W c else nil).
Proof.
  destruct (EncryptionCLISupported_returns W (call_ctx c) s) as (b & e & s1 & E & _ & _).
  assert (N : s1 = mkState (encryptionCLISupport s1) (trace s1 ++ nil))
    by (destruct s1; simpl; rewrite app_nil_r; reflexivity).
  destruct c as [ctx|ctx fs|ctx fs]; simpl in E |- *.
  - rewrite E. simpl. destruct b, e; exact N.
  - destruct e as [e|]; [| destruct b].
    + destruct (gate_probe_error W ctx fs s s1 b e E) as [G _]. rewrite G, E. simpl.
      destruct b; exact N.
    + destruct (validateZFSFilesystem W fs) as [ve|] eqn:V.
      * rewrite (enabled_supported_invalid W ctx fs s s1 ve E V), E. reflexivity.
      * pose proof (enabled_supported_valid W ctx fs s s1 E V) as G. cbv zeta in G.
        rewrite G, E. clear G. simpl. rewrite <- app_assoc. simpl.
        destruct (zfsGet W _ ctx fs _ SourceAny) as [props|qerr]; [| reflexivity].
        destruct (String.eqb (Get props "encryption") EmptyString); [reflexivity |].
        destruct (String.eqb (Get props "encryption") "-"); [reflexivity |].
        destruct (String.eqb (Get props "encryption") "off"); reflexivity.
    + destruct (gate_unsupported W ctx fs s s1 E) as [G _]. rewrite G, E. exact N.
  - destruct e as [e|]; [| destruct b].
    + destruct (gate_probe_error W ctx fs s s1 b e E) as [_ G]. rewrite G, E. simpl.
      destruct b; exact N.
    + pose proof (unloaded_supported W ctx fs s s1 E) as G. cbv zeta in G.
      rewrite G, E. clear G. simpl.
      destruct (zfsGet W _ ctx fs _ SourceAny) as [props|qerr]; [| reflexivity].
      destruct (String.eqb (Get props "keystatus") EmptyString); [reflexivity |].
      destruct (String.eqb (Get props "keystatus") "available"); [reflexivity |].
      destruct (String.eqb (Get props "keystatus") "unavailable"); reflexivity.
    + destruct (gate_unsupported W ctx fs s s1 E) as [_ G]. rewrite G, E. exact N.
Qed.


(** X9: no function writes the cache except through the probe: after any
    call the cache is what the probe left, so once the once has fired a
    call leaves the cache as it found it. *)
Theorem calls_keep_cache (c : call context) (s : state) :
  encryptionCLISupport (snd (run_call W c s)) =
    encryptionCLISupport (snd (EncryptionCLISupported W (call_ctx c) s)) /\
  (once_done (encryptionCLISupport s) = true ->
   encryptionCLISupport (snd (run_call W c s)) = encryptionCLISupport s).
Proof.
  rewrite run_call_state. simpl. split; [reflexivity |].
  intros H. rewrite (EncryptionCLISupported_cached W (call_ctx c) s H). reflexivity.
Qed.

(** ** Runs with the capability present *)

Lemma run_calls_present (cs : list (call context)) (s : state) :
  encryptionCLISupport s = mkCLISupport true true None ->
  trace (snd (run_calls W cs s)) = trace s ++ flat_map (call_events W) cs.
Proof.
  revert s. induction cs as [|c cs IH]; intros s C.
  - simpl. rewrite app_nil_r. reflexivity.
  - rewrite run_calls_cons. simpl snd.
    assert (P : EncryptionCLISupported W (call_ctx c) s = (Return (true, None), s)).
    { rewrite EncryptionCLISupported_cached by (rewrite C; reflexivity).
      rewrite C. reflexivity. }
    pose proof (run_call_state c s) as R. rewrite P in R. simpl in R.
    rewrite IH by (rewrite R; simpl; exact C).
    rewrite R. simpl. rewrite <- app_assoc. reflexivity.
Qed.

(** X10: nothing about a dataset is cached.  In a run whose first probe
    answers (true, nil), the log is the one probe command followed, call by
    call and in order, by each call's own validation and query: every gate
    call asks the collaborators afresh, also for a dataset asked before. *)
Theorem present_run_log (c : call context) (cs : list (call context)) :
  fst (EncryptionCLISupported W (call_ctx c) init_state) = Return (true, None) ->
  trace (snd (run_calls W (c :: cs) init_state)) =
    EvCommand "zfs" ("load-key" :: nil) :: flat_map (call_events W) (c :: cs).
Proof.
  intros H. rewrite run_calls_cons. simpl snd.
  pose proof (EncryptionCLISupported_first W (call_ctx c) init_state eq_refl) as E.
  cbv zeta in E. rewrite E in H. simpl in H. injection H as Hb He.
  pose proof (run_call_state c init_state) as R. rewrite E in R. simpl in R.
  rewrite Hb, He in R. simpl in R.
  rewrite run_calls_present by (rewrite R; reflexivity).
  rewrite R. simpl. reflexivity.
Qed.

(** ** Runs with the capability absent *)

Lemma run_call_absent (c : call context) (s : state) :
  encryptionCLISupport s = mkCLISupport true false None ->
  run_call W c s = (Return (false, None), s).
Proof.
  intros C.
  assert (E : forall ctx, EncryptionCLISupported W ctx s = (Return (false, None), s)).
  { intros ctx. rewrite EncryptionCLISupported_cached by (rewrite C; reflexivity).
    rewrite C. reflexivity. }
  destruct c as [ctx|ctx fs|ctx fs]; simpl.
  - apply E.
  - apply (gate_unsupported W ctx fs s s (E ctx)).
  - apply (gate_unsupported W ctx fs s s (E ctx)).
Qed.

Lemma run_calls_absent (cs : list (call context)) (s : state) :
  encryptionCLISupport s = mkCLISupport true false None ->
  run_calls W cs s = (List.map (fun _ => Return (false, None)) cs, s).
Proof.
  intros C. induction cs as [|c cs IH]; [reflexivity |].
  rewrite run_calls_cons, (run_call_absent c s C). simpl. rewrite IH. reflexivity.
Qed.

(** X11: an absent capability stays absent for the whole run.  When the
    first probe answers (false, nil), every call of the run, whichever
    function and dataset, returns (false, nil), and the run's whole log is
    the one probe command: no name is validated and nothing is queried,
    whatever the subprocess would answer if it were asked again. *)
Theorem absent_run (c : call context) (cs : list (call context)) :
  fst (EncryptionCLISupported W (call_ctx c) init_state) = Return (false, None) ->
  run_calls W (c :: cs) init_state =
    (List.map (fun _ => Return (false, None)) (c :: cs),
     mkState (mkCLISupport true false None) (EvCommand "zfs" ("load-key" :: nil) :: nil)).
Proof.
  intros H.
  pose proof (EncryptionCLISupported_first W (call_ctx c) init_state eq_refl) as E.
  cbv zeta in E. simpl in E. rewrite E in H. simpl in H. injection H as Hb He.
  rewrite Hb, He in E. unfold probe_trace in E. simpl in E.
  set (s1 := mkState (mkCLISupport true false None) _) in *.
  assert (R : run_call W c init_state = (Return (false, None), s1)).
  { destruct c as [ctx|ctx fs|ctx fs]; simpl in *.
    - exact E.
    - apply (gate_unsupported W ctx fs init_state s1 E).
    - apply (gate_unsupported W ctx fs init_state s1 E). }
  rewrite run_calls_cons, R. simpl fst. simpl snd.
  rewrite (run_calls_absent cs s1 eq_refl). reflexivity.
Qed.

(** ** The detection heuristic *)

(** X12: without an override, text around the subprocess's output cannot
    turn a detected capability into an undetected one: if the probe sets
    the flag on some output, it sets it on every output that has that one
    inside it. *)
Theorem detection_survives_noise (W' : Collaborators context) (ctx ctx' : context)
  (s s' : state) (a b : string) :
  once_done (encryptionCLISupport s) = false ->
  once_done (encryptionCLISupport s') = false ->
  getenv W probe_name = None ->
  getenv W' probe_name = None ->
  fst (CombinedOutput W' (trace s') ctx' "zfs" ("load-key" :: nil)) =
    a +:+ fst (CombinedOutput W (trace s) ctx "zfs" ("load-key" :: nil)) +:+ b ->
  supported (encryptionCLISupport (snd (EncryptionCLISupported W ctx s))) = true ->
  supported (encryptionCLISupport (snd (EncryptionCLISupported W' ctx' s'))) = true.
Proof.
  intros H H' G G' O F.
  pose proof (EncryptionCLISupported_first W ctx s H) as E. cbv zeta in E.
  pose proof (EncryptionCLISupported_first W' ctx' s' H') as E'. cbv zeta in E'.
  rewrite E in F. rewrite E'. simpl in F |- *. clear E E'.
  unfold probe_supported, envconst_Bool in F |- *. rewrite G in F. rewrite G', O.
  apply andb_true_iff in F. destruct F as [F1 F2].
  apply Contains_spec in F1, F2.
  destruct F1 as [x [y Hx]]. destruct F2 as [u [v Hu]].
  apply andb_true_iff. split; apply Contains_spec.
  - exists (a +:+ x), (y +:+ b). rewrite Hx at 1.
    rewrite !append_assoc. reflexivity.
  - exists (a +:+ u), (v +:+ b). rewrite Hu at 1.
    rewrite !append_assoc. reflexivity.
Qed.

End Runs.

(** * The further properties at work on the sample environments *)

Import MoreSamples.

Lemma enabled_query_failure_witness :
  fst (ZFSGetEncryptionEnabled modern_zfs tt "pool/nowhere" init_state) =
    Return (false, Some (Errorf_fs "zfs get encryption enabled" "pool/nowhere"
      (withMessage (ForeignError "dataset does not exist")
                   "cannot get `encryption` property"))).
Proof.
  assert (P : fst (EncryptionCLISupported modern_zfs tt init_state) = Return (true, None))
    by (vm_compute; reflexivity).
  exact (enabled_query_failure modern_zfs tt "pool/nowhere" init_state
           (ForeignError "dataset does not exist") P eq_refl eq_refl).
Defined.

Lemma unloaded_query_failure_witness :
  fst (ZFSGetKeyUnloaded modern_zfs tt "pool/nowhere" init_state) =
    Return (false, Some (Errorf_fs "zfs get key loaded" "pool/nowhere"
      (withMessage (ForeignError "dataset does not exist")
                   "cannot get `keystatus` property"))).
Proof.
  assert (P : fst (EncryptionCLISupported modern_zfs tt init_state) = Return (true, None))
    by (vm_compute; reflexivity).
  exact (unloaded_query_failure modern_zfs tt "pool/nowhere" init_state
           (ForeignError "dataset does not exist") P eq_refl).
Defined.

Lemma enabled_true_inversion_witness :
  validateZFSFilesystem modern_zfs "pool/secret" = None /\
  exists props,
    zfsGet modern_zfs
      (trace (snd (EncryptionCLISupported modern_zfs tt init_state)) ++
       EvValidate "pool/secret" :: nil)
      tt "pool/secret" ("encryption" :: nil) SourceAny = inl props /\
    Get props "encryption" <> EmptyString /\
    Get props "encryption" <> "-" /\
    Get props "encryption" <> "off".
Proof.
  assert (H : fst (ZFSGetEncryptionEnabled modern_zfs tt "pool/secret" init_state) =
              Return (true, None)) by (vm_compute; reflexivity).
  exact (proj2 (proj2
    (enabled_true_inversion modern_zfs tt "pool/secret" init_state None H))).
Defined.

Lemma unloaded_true_inversion_witness :
  exists props,
    zfsGet modern_zfs (trace (snd (EncryptionCLISupported modern_zfs tt init_state)))
           tt "pool/secret" ("keystatus" :: nil) SourceAny = inl props /\
    Get props "keystatus" = "unavailable".
Proof.
  assert (H : fst (ZFSGetKeyUnloaded modern_zfs tt "pool/secret" init_state) =
              Return (true, None)) by (vm_compute; reflexivity).
  exact (proj2 (proj2
    (unloaded_true_inversion modern_zfs tt "pool/secret" init_state None H))).
Defined.

Lemma enabled_panic_inversion_witness :
  exists props,
    zfsGet blank_zfs
      (trace (snd (EncryptionCLISupported blank_zfs tt init_state)) ++
       EvValidate "pool/secret" :: nil)
      tt "pool/secret" ("encryption" :: nil) SourceAny = inl props /\
    Get props "encryption" = EmptyString.
Proof.
  assert (H : fst (ZFSGetEncryptionEnabled blank_zfs tt "pool/secret" init_state) =
              Panic "zfs get should return a value for `encryption`")
    by (vm_compute; reflexivity).
  exact (proj2 (proj2 (proj2
    (enabled_panic_inversion blank_zfs tt "pool/secret" init_state _ H)))).
Defined.

Lemma unloaded_panic_inversion_witness :
  fst (EncryptionCLISupported modern_zfs tt init_state) = Return (true, None).
Proof.
  assert (H : fst (ZFSGetKeyUnloaded modern_zfs tt "pool/plain" init_state) =
              Panic "Unknown key status") by (vm_compute; reflexivity).
  exact (proj1 (unloaded_panic_inversion modern_zfs tt "pool/plain" init_state _ H)).
Defined.

Lemma present_run_log_witness :
  trace (snd (run_calls modern_zfs
                (CallEncryptionEnabled tt "pool/secret" ::
                 CallKeyUnloaded tt "pool/secret" ::
                 CallEncryptionEnabled tt "pool/secret@monday" ::
                 CallEncryptionEnabled tt "pool/secret" :: nil)
                init_state)) =
    EvCommand "zfs" ("load-key" :: nil) ::
    EvValidate "pool/secret" :: EvZfsGet "pool/secret" ("encryption" :: nil) SourceAny ::
    EvZfsGet "pool/secret" ("keystatus" :: nil) SourceAny ::
    EvValidate "pool/secret@monday" ::
    EvValidate "pool/secret" :: EvZfsGet "pool/secret" ("encryption" :: nil) SourceAny ::
    nil.
Proof.
  assert (P : fst (EncryptionCLISupported modern_zfs tt init_state) = Return (true, None))
    by (vm_compute; reflexivity).
  rewrite (present_run_log modern_zfs (CallEncryptionEnabled tt "pool/secret")
             (CallKeyUnloaded tt "pool/secret" ::
              CallEncryptionEnabled tt "pool/secret@monday" ::
              CallEncryptionEnabled tt "pool/secret" :: nil) P).
  reflexivity.
Defined.

Lemma absent_run_witness :
  run_calls legacy_zfs
    (CallKeyUnloaded tt "pool/secret" :: CallEncryptionEnabled tt "pool/secret@monday" ::
     CallSupported tt :: nil)
    init_state =
  (Return (false, None) :: Return (false, None) :: Return (false, None) :: nil,
   mkState (mkCLISupport true false None) (EvCommand "zfs" ("load-key" :: nil) :: nil)).
Proof.
  assert (P : fst (EncryptionCLISupported legacy_zfs tt init_state) = Return (false, None))
    by (vm_compute; reflexivity).
  exact (absent_run legacy_zfs (CallKeyUnloaded tt "pool/secret")
           (CallEncryptionEnabled tt "pool/secret@monday" :: CallSupported tt :: nil) P).
Defined.

Lemma detection_survives_noise_witness :
  supported (encryptionCLISupport (snd (EncryptionCLISupported noisy_zfs tt init_state))) = true.
Proof.
  assert (F : supported (encryptionCLISupport
                (snd (EncryptionCLISupported modern_zfs tt init_state))) = true)
    by (vm_compute; reflexivity).
  exact (detection_survives_noise modern_zfs noisy_zfs tt tt init_state init_state
           "WARNING: pool is degraded; " " (see zfs(8))"
           eq_refl eq_refl eq_refl eq_refl eq_refl F).
Defined.
